(** * MCP3208_demo: the channel-read transaction of [readAdc]

    A shallow embedding of [src/MCP3208_demo.py].  Python integers are
    unbounded, so they are modelled as [Z] and the operators [|], [&], [<<]
    and [>>] as [Z.lor], [Z.land], [Z.shiftl] and [Z.shiftr].  The script
    talks to the converter through the module-level handle [spi]; its
    [xfer2] method is the only effect of [readAdc].  The handle is kept
    abstract (class [SpiBus]) and the function is written in a small
    state-and-exception monad over the world the handle lives in. *)

From Stdlib Require Import ZArith List Bool Lia.
From Stdlib Require String Ascii DecimalString.
Import ListNotations.
Local Open Scope Z_scope.

(** ** Configuration bits for the MCP3208 (module-level constants) *)

Definition START_BIT : Z := 0x10.

Definition CONFIG_DIFFERENTIAL_AN0_P_AN1_N : Z := 0x00.
Definition CONFIG_DIFFERENTIAL_AN1_P_AN0_N : Z := 0x01.
Definition CONFIG_DIFFERENTIAL_AN2_P_AN3_N : Z := 0x02.
Definition CONFIG_DIFFERENTIAL_AN3_P_AN2_N : Z := 0x03.
Definition CONFIG_DIFFERENTIAL_AN4_P_AN5_N : Z := 0x04.
Definition CONFIG_DIFFERENTIAL_AN5_P_AN4_N : Z := 0x05.
Definition CONFIG_DIFFERENTIAL_AN6_P_AN7_N : Z := 0x06.
Definition CONFIG_DIFFERENTIAL_AN7_P_AN6_N : Z := 0x07.
Definition CONFIG_SINGLE_ENDED_AN0_P_GND_N : Z := 0x08.
Definition CONFIG_SINGLE_ENDED_AN1_P_GND_N : Z := 0x09.
Definition CONFIG_SINGLE_ENDED_AN2_P_GND_N : Z := 0x0A.
Definition CONFIG_SINGLE_ENDED_AN3_P_GND_N : Z := 0x0B.
Definition CONFIG_SINGLE_ENDED_AN4_P_GND_N : Z := 0x0C.
Definition CONFIG_SINGLE_ENDED_AN5_P_GND_N : Z := 0x0D.
Definition CONFIG_SINGLE_ENDED_AN6_P_GND_N : Z := 0x0E.
Definition CONFIG_SINGLE_ENDED_AN7_P_GND_N : Z := 0x0F.

(** ** The pure part of [readAdc] *)

(** [config = (START_BIT | CONFIG_SINGLE_ENDED_AN0_P_GND_N | channel)]. *)
Definition config (channel : Z) : Z :=
  Z.lor (Z.lor START_BIT CONFIG_SINGLE_ENDED_AN0_P_GND_N) channel.

(** [sendBytes = [(config>>2) & 0x07, (config<<6) & 0xC0, 0]]. *)
Definition sendBytes (channel : Z) : list Z :=
  [ Z.land (Z.shiftr (config channel) 2) 0x07;
    Z.land (Z.shiftl (config channel) 6) 0xC0;
    0 ].

(** ** Outcomes of a Python call: a value, or an exception in flight *)

Inductive outcome (X A : Type) : Type :=
| Returns (a : A)
| Raises (e : X).

Arguments Returns {X A} a.
Arguments Raises {X A} e.

(** Did the call end with an exception? *)
Definition raised {X A : Type} (o : outcome X A) : bool :=
  match o with
  | Returns _ => false
  | Raises _ => true
  end.

(** ** The transport: what the script needs from [spidev.SpiDev]

    [SpiDev] is the state of the handle together with whatever sits behind
    it; [spi_xfer2 out dev] is one full-duplex exchange: it either returns
    the list of integers read back or raises, and leaves the handle in a
    new state.  [exn] is the type of Python exceptions; [IndexError] is
    the one list indexing raises. *)

Class SpiBus : Type := {
  exn : Type;
  IndexError : exn;
  SpiDev : Type;
  spi_xfer2 : list Z -> SpiDev -> outcome exn (list Z) * SpiDev
}.

Section Sampler.
Context {bus : SpiBus}.

(** The world [readAdc] runs in: the global [spi], and a ghost log
    [wire] of every frame handed to [spi.xfer2], oldest first. *)
Record World : Type := mkWorld {
  spi : SpiDev;
  wire : list (list Z)
}.

(** Number of transport calls made so far. *)
Definition calls (w : World) : nat := length (wire w).

Definition Py (A : Type) : Type := World -> outcome exn A * World.

Definition ret {A} (a : A) : Py A := fun w => (Returns a, w).

(** Sequencing: an exception raised by the first computation skips the
    rest (there is no [try] inside [readAdc]). *)
Definition bind {A B} (m : Py A) (k : A -> Py B) : Py B :=
  fun w =>
    match m w with
    | (Returns a, w') => k a w'
    | (Raises e, w') => (Raises e, w')
    end.

(** [spi.xfer2(out)]: one exchange on the global handle. *)
Definition xfer2 (out : list Z) : Py (list Z) :=
  fun w =>
    let (r, dev') := spi_xfer2 out (spi w) in
    (r, mkWorld dev' (wire w ++ [out])).

(** [l[i]] for a non-negative literal index [i]. *)
Definition getitem (l : list Z) (i : nat) : Py Z :=
  fun w =>
    match nth_error l i with
    | Some x => (Returns x, w)
    | None => (Raises IndexError, w)
    end.

Declare Scope py_scope.
Notation "x <- m ;; k" := (bind m (fun x => k))
  (at level 100, m at next level, right associativity) : py_scope.
Local Open Scope py_scope.

(** [def readAdc(channel)]. *)
Definition readAdc (channel : Z) : Py Z :=
  if (channel >? 7) || (channel <? 0) then
    ret (-1)
  else
    rcvBytes <- xfer2 (sendBytes channel) ;;
    hi <- getitem rcvBytes 1 ;;
    lo <- getitem rcvBytes 2 ;;
    ret (Z.lor (Z.shiftl (Z.land hi 0x0f) 8) lo).

End Sampler.

(** ** Frames *)

Definition is_byte (b : Z) : bool := (0 <=? b) && (b <=? 255).

(** A frame on the wire: exactly three bytes. *)
Definition is_frame (l : list Z) : bool :=
  (length l =? 3)%nat && forallb is_byte l.

(** The channel read back from a command frame: bit 0 of byte 0 followed
    by bits 7-6 of byte 1. *)
Definition channel_of_frame (f : list Z) : Z :=
  match f with
  | [b0; b1; _] => Z.lor (Z.shiftl (Z.land b0 1) 2) (Z.land (Z.shiftr b1 6) 3)
  | _ => -1
  end.

(** ** A scripted transport, for running [readAdc] on concrete replies

    The handle holds the replies still to come; each exchange consumes
    one, and an exhausted script raises an I/O error. *)

Inductive pyexn : Type :=
| EIndex
| EIO (errno : Z).

Definition scripted_xfer2 (out : list Z) (s : list (outcome pyexn (list Z)))
  : outcome pyexn (list Z) * list (outcome pyexn (list Z)) :=
  match s with
  | [] => (Raises (EIO 5), [])
  | r :: s' => (r, s')
  end.

#[local] Instance scripted_bus : SpiBus := {|
  exn := pyexn;
  IndexError := EIndex;
  SpiDev := list (outcome pyexn (list Z));
  spi_xfer2 := scripted_xfer2
|}.

(** Start of a run: the given script, nothing sent yet. *)
Definition fresh (s : list (outcome pyexn (list Z))) : @World scripted_bus :=
  mkWorld s [].


(** A command frame read as one 24-bit number, first byte first. *)
Definition frame_word (f : list Z) : Z :=
  fold_left (fun acc b => acc * 256 + b) f 0.

(** The single-ended constants, by channel. *)
Definition single_ended_table : list Z :=
  [ CONFIG_SINGLE_ENDED_AN0_P_GND_N; CONFIG_SINGLE_ENDED_AN1_P_GND_N;
    CONFIG_SINGLE_ENDED_AN2_P_GND_N; CONFIG_SINGLE_ENDED_AN3_P_GND_N;
    CONFIG_SINGLE_ENDED_AN4_P_GND_N; CONFIG_SINGLE_ENDED_AN5_P_GND_N;
    CONFIG_SINGLE_ENDED_AN6_P_GND_N; CONFIG_SINGLE_ENDED_AN7_P_GND_N ].

(** The differential constants, in the order of the source. *)
Definition differential_table : list Z :=
  [ CONFIG_DIFFERENTIAL_AN0_P_AN1_N; CONFIG_DIFFERENTIAL_AN1_P_AN0_N;
    CONFIG_DIFFERENTIAL_AN2_P_AN3_N; CONFIG_DIFFERENTIAL_AN3_P_AN2_N;
    CONFIG_DIFFERENTIAL_AN4_P_AN5_N; CONFIG_DIFFERENTIAL_AN5_P_AN4_N;
    CONFIG_DIFFERENTIAL_AN6_P_AN7_N; CONFIG_DIFFERENTIAL_AN7_P_AN6_N ].

(** ** The text of the line the main loop prints *)

Module Text.
Import Ascii String.
Local Open Scope string_scope.

(** [str(n)] of an integer: decimal digits, [-] in front when negative. *)
Definition str (n : Z) : string :=
  DecimalString.NilZero.string_of_int (Z.to_int n).

Fixpoint zeros (n : nat) : string :=
  match n with
  | O => ""
  | S k => String "0" (zeros k)
  end.

Definition is_sign (c : ascii) : bool :=
  Ascii.eqb c "+" || Ascii.eqb c "-".

(** [s.zfill(width)]: a string already that long is returned as it is;
    otherwise zeros are put in front, behind a leading sign if any. *)
Definition zfill (width : nat) (s : string) : string :=
  if (width <=? length s)%nat then s
  else
    match s with
    | String c rest =>
        if is_sign c then String c (zeros (width - length s) ++ rest)
        else zeros (width - length s) ++ s
    | EmptyString => zeros width
    end.

(** The initial value of [s] in the loop. *)
Definition header : string := "Ctrl-C to exit, ADC: ".

(** [str(i)+":"+str(val).zfill(4)+" "]. *)
Definition field (i val : Z) : string :=
  ((str i ++ ":") ++ zfill 4 (str val)) ++ " ".

End Text.

(** [range(lo, hi)]. *)
Definition range (lo hi : Z) : list Z :=
  map (fun k => lo + Z.of_nat k) (seq 0 (Z.to_nat (hi - lo))).

Section MainLoop.
Context {bus : SpiBus}.

(** The [for i in ...] loop of the main block over the channels still to
    read, from the current value of [s]:
    [val = readAdc(i)] then [s += str(i)+":"+str(val).zfill(4)+" "]. *)
Fixpoint for_channels (chans : list Z) (s : String.string)
  : Py String.string :=
  match chans with
  | [] => ret s
  | i :: rest =>
      bind (readAdc i)
           (fun val => for_channels rest (String.append s (Text.field i val)))
  end.

(** One turn of [while True] up to [print s]: the line that is printed. *)
Definition adc_line : Py String.string :=
  for_channels (range 0 8) Text.header.

(** A transport that, when it returns, returns a 3-byte frame. *)
Definition replies_are_frames : Prop :=
  forall (out : list Z) (dev : SpiDev) (rcv : list Z) (dev' : SpiDev),
    spi_xfer2 out dev = (Returns rcv, dev') -> is_frame rcv = true.

(** A transport whose exchange never raises. *)
Definition never_raises : Prop :=
  forall (out : list Z) (dev : SpiDev),
    raised (fst (spi_xfer2 out dev)) = false.

End MainLoop.

(** ** A simulated converter, for running the loop

    The handle holds the 12-bit codes at the eight inputs; an exchange
    answers the channel named in the command frame, high nibble then low
    byte, and never fails. *)

Definition mcp3208_xfer2 (out : list Z) (inputs : list Z)
  : outcome pyexn (list Z) * list Z :=
  let v := nth (Z.to_nat (channel_of_frame out)) inputs 0 in
  (Returns [0; Z.land (Z.shiftr v 8) 0x0F; Z.land v 0xFF], inputs).

#[local] Instance mcp3208_bus : SpiBus := {|
  exn := pyexn;
  IndexError := EIndex;
  SpiDev := list Z;
  spi_xfer2 := mcp3208_xfer2
|}.

(** Start of a run on the simulated converter. *)
Definition powered (inputs : list Z) : @World mcp3208_bus :=
  mkWorld inputs [].


Lemma Returns_inj {X A : Type} (a b : A) :
  @Returns X A a = Returns b -> a = b.
Proof. intros E. injection E as E. exact E. Qed.

(** ** Arithmetic of the bit operations *)

Lemma land_nibble_range (x : Z) : 0 <= Z.land x 0x0f <= 15.
Proof.
  change (Z.land x 0x0f) with (Z.land x (Z.ones 4)).
  rewrite Z.land_ones by lia.
  change (2 ^ 4) with 16.
  pose proof (Z.mod_pos_bound x 16 ltac:(lia)). lia.
Qed.

Lemma lor_below_pow2 (a b n : Z) :
  0 <= n -> 0 <= a < 2 ^ n -> 0 <= b < 2 ^ n -> 0 <= Z.lor a b < 2 ^ n.
Proof.
  intros Hn Ha Hb. split.
  - apply Z.lor_nonneg. lia.
  - destruct (Z.eq_dec (Z.lor a b) 0) as [E | NE].
    + rewrite E. apply Z.pow_pos_nonneg; lia.
    + assert (Hpos : 0 < Z.lor a b).
      { pose proof (proj2 (Z.lor_nonneg a b) (conj (proj1 Ha) (proj1 Hb))). lia. }
      assert (Hn' : 0 < n).
      { destruct (Z.eq_dec n 0) as [-> | ?]; [| lia].
        change (2 ^ 0) with 1 in Ha, Hb.
        assert (a = 0) as -> by lia. assert (b = 0) as -> by lia.
        simpl in NE. congruence. }
      apply Z.log2_lt_pow2; [exact Hpos |].
      rewrite Z.log2_lor by lia.
      assert (La : Z.log2 a < n).
      { destruct (Z.eq_dec a 0) as [-> | ?]; [simpl; lia |].
        apply Z.log2_lt_pow2; lia. }
      assert (Lb : Z.log2 b < n).
      { destruct (Z.eq_dec b 0) as [-> | ?]; [simpl; lia |].
        apply Z.log2_lt_pow2; lia. }
      lia.
Qed.

(** The value [readAdc] computes from the two bytes it looks at is a
    12-bit number as soon as the low byte is a byte. *)
Lemma sample_range (hi lo : Z) :
  0 <= lo <= 255 ->
  0 <= Z.lor (Z.shiftl (Z.land hi 0x0f) 8) lo <= 4095.
Proof.
  intros Hlo.
  pose proof (land_nibble_range hi) as Hhi.
  rewrite Z.shiftl_mul_pow2 by lia.
  change (2 ^ 8) with 256.
  pose proof (lor_below_pow2 (Z.land hi 0x0f * 256) lo 12 ltac:(lia)) as H.
  change (2 ^ 12) with 4096 in H.
  lia.
Qed.

Lemma valid_channel_cases (c : Z) :
  0 <= c <= 7 ->
  c = 0 \/ c = 1 \/ c = 2 \/ c = 3 \/ c = 4 \/ c = 5 \/ c = 6 \/ c = 7.
Proof. lia. Qed.

Lemma is_byte_range (b : Z) : is_byte b = true -> 0 <= b <= 255.
Proof.
  unfold is_byte. intros H.
  apply andb_true_iff in H as [H1 H2].
  apply Z.leb_le in H1. apply Z.leb_le in H2. lia.
Qed.

Lemma is_frame_inv (l : list Z) :
  is_frame l = true ->
  exists b0 b1 b2,
    l = [b0; b1; b2] /\ 0 <= b0 <= 255 /\ 0 <= b1 <= 255 /\ 0 <= b2 <= 255.
Proof.
  unfold is_frame. intros H.
  apply andb_true_iff in H as [Hlen Hall].
  apply Nat.eqb_eq in Hlen.
  destruct l as [| b0 [| b1 [| b2 [| ? ?]]]]; try discriminate.
  simpl in Hall.
  repeat (apply andb_true_iff in Hall as [?%is_byte_range Hall]).
  exists b0, b1, b2. auto.
Qed.

(** ** Running [readAdc] *)

Section Running.
Context {bus : SpiBus}.

Lemma guard_valid (c : Z) : 0 <= c <= 7 -> (c >? 7) || (c <? 0) = false.
Proof.
  intros H. apply orb_false_iff. split.
  - rewrite Z.gtb_ltb. apply Z.ltb_ge. lia.
  - apply Z.ltb_ge. lia.
Qed.

Lemma guard_invalid (c : Z) : c < 0 \/ c > 7 -> (c >? 7) || (c <? 0) = true.
Proof.
  intros H. apply orb_true_iff. destruct H.
  - right. apply Z.ltb_lt. lia.
  - left. rewrite Z.gtb_ltb. apply Z.ltb_lt. lia.
Qed.

(** An out-of-range channel: early return, world untouched. *)
Lemma readAdc_invalid (c : Z) (w : World) :
  c < 0 \/ c > 7 -> readAdc c w = (Returns (-1), w).
Proof.
  intros H. unfold readAdc. rewrite (guard_invalid c H). reflexivity.
Qed.

(** The exchange raises: the exception leaves [readAdc] as it is. *)
Lemma readAdc_raises (c : Z) (w : World) (e : exn) (dev' : SpiDev) :
  0 <= c <= 7 ->
  spi_xfer2 (sendBytes c) (spi w) = (Raises e, dev') ->
  readAdc c w = (Raises e, mkWorld dev' (wire w ++ [sendBytes c])).
Proof.
  intros H X. unfold readAdc. rewrite (guard_valid c H).
  unfold bind, xfer2. rewrite X. reflexivity.
Qed.

(** The exchange returns a list with items 1 and 2. *)
Lemma readAdc_returns (c : Z) (w : World) (rcv : list Z) (dev' : SpiDev)
      (hi lo : Z) :
  0 <= c <= 7 ->
  spi_xfer2 (sendBytes c) (spi w) = (Returns rcv, dev') ->
  nth_error rcv 1 = Some hi ->
  nth_error rcv 2 = Some lo ->
  readAdc c w =
    (Returns (Z.lor (Z.shiftl (Z.land hi 0x0f) 8) lo),
     mkWorld dev' (wire w ++ [sendBytes c])).
Proof.
  intros H X H1 H2. unfold readAdc. rewrite (guard_valid c H).
  unfold bind, xfer2, getitem, ret. rewrite X. cbv beta iota.
  rewrite H1. cbv beta iota. rewrite H2. reflexivity.
Qed.

(** The exchange returns fewer than three items: indexing raises. *)
Lemma readAdc_short (c : Z) (w : World) (rcv : list Z) (dev' : SpiDev) :
  0 <= c <= 7 ->
  spi_xfer2 (sendBytes c) (spi w) = (Returns rcv, dev') ->
  (length rcv < 3)%nat ->
  readAdc c w = (Raises IndexError, mkWorld dev' (wire w ++ [sendBytes c])).
Proof.
  intros H X L. unfold readAdc. rewrite (guard_valid c H).
  unfold bind, xfer2, getitem, ret. rewrite X. simpl.
  destruct rcv as [| b0 [| b1 [| b2 ?]]]; simpl in *; try reflexivity; lia.
Qed.

(** Whatever the exchange does, the world after a valid call is the
    handle as the exchange left it, with one more frame on the log. *)
Lemma readAdc_world (c : Z) (w : World) :
  0 <= c <= 7 ->
  snd (readAdc c w) =
    mkWorld (snd (spi_xfer2 (sendBytes c) (spi w))) (wire w ++ [sendBytes c]).
Proof.
  intros H.
  destruct (spi_xfer2 (sendBytes c) (spi w)) as [[rcv | e] dev'] eqn:X; simpl.
  - destruct (le_lt_dec 3 (length rcv)) as [L | L].
    + destruct rcv as [| b0 [| b1 [| b2 tl]]]; simpl in L; try lia.
      rewrite (readAdc_returns c w _ dev' b1 b2 H X); reflexivity.
    + rewrite (readAdc_short c w rcv dev' H X L). reflexivity.
  - rewrite (readAdc_raises c w e dev' H X). reflexivity.
Qed.

(** The outcome of a valid call is determined by the exchange's reply:
    two runs whose exchanges reply alike end alike, whatever the
    channels and the worlds. *)
Lemma readAdc_same_reply (c c' : Z) (w w' : World) :
  0 <= c <= 7 -> 0 <= c' <= 7 ->
  fst (spi_xfer2 (sendBytes c) (spi w)) =
  fst (spi_xfer2 (sendBytes c') (spi w')) ->
  fst (readAdc c w) = fst (readAdc c' w').
Proof.
  intros H H' E. unfold readAdc.
  rewrite (guard_valid c H), (guard_valid c' H').
  unfold bind, xfer2, getitem, ret.
  destruct (spi_xfer2 (sendBytes c) (spi w)) as [r dev].
  destruct (spi_xfer2 (sendBytes c') (spi w')) as [r' dev'].
  unfold fst in E. subst r'.
  destruct r as [rcv | e]; cbv beta iota; [| reflexivity].
  destruct (nth_error rcv 1); [| reflexivity].
  destruct (nth_error rcv 2); reflexivity.
Qed.

End Running.

(** ** The command frame *)

Lemma sendBytes_is_frame (c : Z) : 0 <= c <= 7 -> is_frame (sendBytes c) = true.
Proof.
  intros H.
  destruct (valid_channel_cases c H) as [-> | [-> | [-> | [-> | [-> | [-> | [-> | ->]]]]]]];
    reflexivity.
Qed.

Lemma channel_of_sendBytes (c : Z) :
  0 <= c <= 7 -> channel_of_frame (sendBytes c) = c.
Proof.
  intros H.
  destruct (valid_channel_cases c H) as [-> | [-> | [-> | [-> | [-> | [-> | [-> | ->]]]]]]];
    reflexivity.
Qed.

Section Claims.
Context {bus : SpiBus}.

(** C1.  For every channel [c] with [0 <= c <= 7], the configuration
    value is start bit [0x10] OR single-ended selector [0x08] OR the
    channel, that is [0x18 | c], and the command frame built, and
    handed to the transport, by [readAdc] is
    [[((0x18 | c) >> 2) & 0x07, ((0x18 | c) << 6) & 0xC0, 0x00]]. *)
Theorem command_frame_layout (c : Z) (w : World) :
  0 <= c <= 7 ->
  START_BIT = 0x10 /\
  CONFIG_SINGLE_ENDED_AN0_P_GND_N = 0x08 /\
  config c = Z.lor (Z.lor 0x10 0x08) c /\
  config c = Z.lor 0x18 c /\
  sendBytes c =
    [ Z.land (Z.shiftr (Z.lor 0x18 c) 2) 0x07;
      Z.land (Z.shiftl (Z.lor 0x18 c) 6) 0xC0;
      0x00 ] /\
  wire (snd (readAdc c w)) =
    wire w ++
    [[ Z.land (Z.shiftr (Z.lor 0x18 c) 2) 0x07;
       Z.land (Z.shiftl (Z.lor 0x18 c) 6) 0xC0;
       0x00 ]].
Proof.
  intros H. repeat split; try reflexivity.
  rewrite (readAdc_world c w H). reflexivity.
Qed.

(** C2.  For every 3-byte response frame [[r0, r1, r2]] the value
    [readAdc] returns is [((r1 & 0x0F) << 8) | r2]; in particular the
    response [[0x00, 0x0A, 0xFF]] decodes to 2815, [[0x00, 0x00, 0x00]]
    to 0 and [[0x00, 0x0F, 0xFF]] to 4095. *)
Theorem decode_formula (c : Z) (w : World) (r0 r1 r2 : Z) (dev' : SpiDev) :
  0 <= c <= 7 ->
  spi_xfer2 (sendBytes c) (spi w) = (Returns [r0; r1; r2], dev') ->
  fst (readAdc c w) = Returns (Z.lor (Z.shiftl (Z.land r1 0x0F) 8) r2) /\
  ([r0; r1; r2] = [0x00; 0x0A; 0xFF] -> fst (readAdc c w) = Returns 2815) /\
  ([r0; r1; r2] = [0x00; 0x00; 0x00] -> fst (readAdc c w) = Returns 0) /\
  ([r0; r1; r2] = [0x00; 0x0F; 0xFF] -> fst (readAdc c w) = Returns 4095).
Proof.
  intros H X.
  assert (R : fst (readAdc c w) =
              Returns (Z.lor (Z.shiftl (Z.land r1 0x0F) 8) r2)).
  { rewrite (readAdc_returns c w _ dev' r1 r2 H X); reflexivity. }
  split; [exact R |].
  repeat split; intros E; injection E as -> -> ->; rewrite R; reflexivity.
Qed.

(** C3 (amended).  For every channel outside 0..7 (8 and -1 among
    them) [readAdc] does not fail: it returns the code -1 as an
    ordinary result, no exception is raised, and it makes no transport
    call: nothing is added to the frames sent and the handle is left as
    it was. *)
Theorem invalid_channel_returns_sentinel (c : Z) (w : World) :
  c < 0 \/ c > 7 ->
  fst (readAdc c w) = Returns (-1) /\
  raised (fst (readAdc c w)) = false /\
  calls (snd (readAdc c w)) = calls w /\
  wire (snd (readAdc c w)) = wire w /\
  spi (snd (readAdc c w)) = spi w /\
  readAdc 8 w = (Returns (-1), w) /\
  readAdc (-1) w = (Returns (-1), w).
Proof.
  intros H. rewrite (readAdc_invalid c w H).
  repeat split; apply readAdc_invalid; lia.
Qed.

(** C4.  For every 3-byte response frame, whatever its bytes, the
    value [readAdc] returns is an integer between 0 and 4095. *)
Theorem decoded_value_12bit (c : Z) (w : World) (rcv : list Z)
        (dev' : SpiDev) :
  0 <= c <= 7 ->
  spi_xfer2 (sendBytes c) (spi w) = (Returns rcv, dev') ->
  is_frame rcv = true ->
  exists v : Z, fst (readAdc c w) = Returns v /\ 0 <= v <= 4095.
Proof.
  intros H X F.
  destruct (is_frame_inv rcv F) as (b0 & b1 & b2 & -> & _ & _ & B2).
  exists (Z.lor (Z.shiftl (Z.land b1 0x0f) 8) b2). split.
  - rewrite (readAdc_returns c w _ dev' b1 b2 H X); reflexivity.
  - apply sample_range. exact B2.
Qed.

(** C5.  For channel 0 the command frame is [[0x06, 0x00, 0x00]]; for
    channel 7 the configuration value is [0x1F] and the command frame
    is [[0x07, 0xC0, 0x00]]; these are the frames [readAdc] sends. *)
Theorem command_frames_0_and_7 (w : World) :
  sendBytes 0 = [0x06; 0x00; 0x00] /\
  config 7 = 0x1F /\
  sendBytes 7 = [0x07; 0xC0; 0x00] /\
  wire (snd (readAdc 0 w)) = wire w ++ [[0x06; 0x00; 0x00]] /\
  wire (snd (readAdc 7 w)) = wire w ++ [[0x07; 0xC0; 0x00]].
Proof.
  repeat split.
  - rewrite (readAdc_world 0 w) by lia. reflexivity.
  - rewrite (readAdc_world 7 w) by lia. reflexivity.
Qed.

(** C6.  For every valid channel one call of [readAdc] makes exactly
    one transport exchange, of a 3-byte frame that depends on the
    channel only; the handle is left as that exchange left it, and the
    outcome depends only on that exchange's reply: any other world in
    which the exchange replies alike gives the same outcome. *)
Theorem one_exchange_per_call (c : Z) (w : World) :
  0 <= c <= 7 ->
  wire (snd (readAdc c w)) = wire w ++ [sendBytes c] /\
  calls (snd (readAdc c w)) = S (calls w) /\
  is_frame (sendBytes c) = true /\
  spi (snd (readAdc c w)) = snd (spi_xfer2 (sendBytes c) (spi w)) /\
  (forall w' : World,
      fst (spi_xfer2 (sendBytes c) (spi w')) =
      fst (spi_xfer2 (sendBytes c) (spi w)) ->
      fst (readAdc c w') = fst (readAdc c w)).
Proof.
  intros H. rewrite (readAdc_world c w H). unfold calls. simpl.
  repeat split.
  - rewrite length_app. simpl. lia.
  - apply sendBytes_is_frame. exact H.
  - intros w' E. apply readAdc_same_reply; assumption.
Qed.

(** C7.  For every valid channel, when the transport exchange raises,
    [readAdc] ends with that very exception, after that one exchange
    and no other. *)
Theorem transport_failure_propagates (c : Z) (w : World) (e : exn)
        (dev' : SpiDev) :
  0 <= c <= 7 ->
  spi_xfer2 (sendBytes c) (spi w) = (Raises e, dev') ->
  fst (readAdc c w) = Raises e /\
  wire (snd (readAdc c w)) = wire w ++ [sendBytes c] /\
  calls (snd (readAdc c w)) = S (calls w) /\
  spi (snd (readAdc c w)) = dev'.
Proof.
  intros H X. rewrite (readAdc_raises c w e dev' H X).
  unfold calls. simpl. repeat split.
  rewrite length_app. simpl. lia.
Qed.

(** C8.  An out-of-range channel makes [readAdc] return -1, which is
    outside 0..4095; so for every invalid channel and every response
    frame to a valid call, the invalid-channel result differs from the
    sample returned. *)
Theorem invalid_result_distinguishable (bad c : Z) (w1 w2 : World)
        (rcv : list Z) (dev' : SpiDev) :
  bad < 0 \/ bad > 7 ->
  0 <= c <= 7 ->
  spi_xfer2 (sendBytes c) (spi w2) = (Returns rcv, dev') ->
  is_frame rcv = true ->
  fst (readAdc bad w1) = Returns (-1) /\
  ~ (0 <= -1 <= 4095) /\
  fst (readAdc bad w1) <> fst (readAdc c w2).
Proof.
  intros Hbad H X F.
  rewrite (readAdc_invalid bad w1 Hbad).
  split; [reflexivity |]. split; [lia |].
  destruct (is_frame_inv rcv F) as (b0 & b1 & b2 & -> & _ & _ & B2).
  rewrite (readAdc_returns c w2 _ dev' b1 b2 H X); try reflexivity.
  cbn [fst]. intros E. apply Returns_inj in E.
  pose proof (sample_range b1 b2 B2). lia.
Qed.

(** C10.  The value decoded does not depend on response byte 0 nor on
    the high four bits of response byte 1: two 3-byte responses that
    agree on the low four bits of byte 1 and on byte 2 give the same
    result. *)
Theorem decode_ignores_unused_bits (c c' : Z) (w w' : World)
        (a0 a1 a2 b0 b1 b2 : Z) (da db : SpiDev) :
  0 <= c <= 7 ->
  0 <= c' <= 7 ->
  spi_xfer2 (sendBytes c) (spi w) = (Returns [a0; a1; a2], da) ->
  spi_xfer2 (sendBytes c') (spi w') = (Returns [b0; b1; b2], db) ->
  Z.land a1 0x0F = Z.land b1 0x0F ->
  a2 = b2 ->
  fst (readAdc c w) = fst (readAdc c' w').
Proof.
  intros H H' X X' E1 E2.
  rewrite (readAdc_returns c w _ da a1 a2 H X) by reflexivity.
  rewrite (readAdc_returns c' w' _ db b1 b2 H' X') by reflexivity.
  cbn [fst]. rewrite E1, E2. reflexivity.
Qed.

End Claims.

(** C9.  The command encoding is injective on valid channels: the
    channel is read back from a command frame as bit 0 of byte 0
    followed by bits 7-6 of byte 1, so two distinct channels in 0..7
    never give the same frame. *)
Theorem command_encoding_injective (c1 c2 : Z) :
  0 <= c1 <= 7 ->
  0 <= c2 <= 7 ->
  channel_of_frame (sendBytes c1) = c1 /\
  channel_of_frame (sendBytes c2) = c2 /\
  (c1 <> c2 -> sendBytes c1 <> sendBytes c2).
Proof.
  intros H1 H2.
  split; [apply channel_of_sendBytes; exact H1 |].
  split; [apply channel_of_sendBytes; exact H2 |].
  intros D E. apply D.
  rewrite <- (channel_of_sendBytes c1 H1), <- (channel_of_sendBytes c2 H2).
  rewrite E. reflexivity.
Qed.

(** ** The claims on the scripted transport *)

(** Channel 5 on a fresh scripted bus: the frame [[0x07, 0x40, 0x00]]
    goes out. *)
Lemma command_frame_layout_witness :
  0 <= 5 <= 7 /\
  sendBytes 5 = [0x07; 0x40; 0x00] /\
  wire (snd (readAdc 5 (fresh [Returns [0x00; 0x0A; 0xFF]]))) =
    [[0x07; 0x40; 0x00]].
Proof.
  assert (H : 0 <= 5 <= 7) by lia.
  destruct (command_frame_layout (bus := scripted_bus) 5
              (fresh [Returns [0x00; 0x0A; 0xFF]]) H) as (_ & _ & _ & _ & S & W).
  split; [exact H |]. split; [exact S | exact W].
Defined.

(** Channel 3 answered by [[0x00, 0x0A, 0xFF]]: the sample is 2815. *)
Lemma decode_formula_witness :
  0 <= 3 <= 7 /\
  scripted_xfer2 (sendBytes 3) [Returns [0x00; 0x0A; 0xFF]] =
    (Returns [0x00; 0x0A; 0xFF], []) /\
  fst (readAdc 3 (fresh [Returns [0x00; 0x0A; 0xFF]])) = Returns 2815.
Proof.
  assert (H : 0 <= 3 <= 7) by lia.
  destruct (decode_formula (bus := scripted_bus) 3
              (fresh [Returns [0x00; 0x0A; 0xFF]]) 0x00 0x0A 0xFF []
              H eq_refl) as (_ & V & _ & _).
  split; [exact H |]. split; [reflexivity | exact (V eq_refl)].
Defined.

(** Channel 8: -1 comes back and the script is not touched. *)
Lemma invalid_channel_returns_sentinel_witness :
  (8 < 0 \/ 8 > 7) /\
  fst (readAdc 8 (fresh [Returns [0x00; 0x0A; 0xFF]])) = Returns (-1) /\
  calls (snd (readAdc 8 (fresh [Returns [0x00; 0x0A; 0xFF]]))) = 0%nat /\
  spi (snd (readAdc 8 (fresh [Returns [0x00; 0x0A; 0xFF]]))) =
    [Returns [0x00; 0x0A; 0xFF]].
Proof.
  assert (H : 8 < 0 \/ 8 > 7) by lia.
  destruct (invalid_channel_returns_sentinel (bus := scripted_bus) 8
              (fresh [Returns [0x00; 0x0A; 0xFF]]) H)
    as (V & _ & C & _ & D & _).
  split; [exact H |]. split; [exact V |]. split; [exact C | exact D].
Defined.

(** C3 as stated does not hold: channels 8 and -1 are outside 0..7, yet
    the call ends with an ordinary return, of -1, and not with an
    error. *)
Lemma invalid_channel_raises_nothing :
  (8 < 0 \/ 8 > 7) /\
  (-1 < 0 \/ -1 > 7) /\
  readAdc 8 (fresh [Returns [0x00; 0x0A; 0xFF]]) =
    (Returns (-1), fresh [Returns [0x00; 0x0A; 0xFF]]) /\
  readAdc (-1) (fresh [Returns [0x00; 0x0A; 0xFF]]) =
    (Returns (-1), fresh [Returns [0x00; 0x0A; 0xFF]]) /\
  raised (fst (readAdc 8 (fresh [Returns [0x00; 0x0A; 0xFF]]))) = false /\
  raised (fst (readAdc (-1) (fresh [Returns [0x00; 0x0A; 0xFF]]))) = false /\
  ~ (exists e : pyexn,
        fst (readAdc 8 (fresh [Returns [0x00; 0x0A; 0xFF]])) = Raises e).
Proof.
  split; [lia |]. split; [lia |].
  repeat (split; [reflexivity |]).
  intros [e E]. discriminate E.
Qed.

(** Channel 0 answered by three bytes of ones: the sample is in range. *)
Lemma decoded_value_12bit_witness :
  0 <= 0 <= 7 /\
  is_frame [0xFF; 0xFF; 0xFF] = true /\
  exists v : Z,
    fst (readAdc 0 (fresh [Returns [0xFF; 0xFF; 0xFF]])) = Returns v /\
    0 <= v <= 4095.
Proof.
  assert (H : 0 <= 0 <= 7) by lia.
  split; [exact H |]. split; [reflexivity |].
  exact (decoded_value_12bit (bus := scripted_bus) 0
           (fresh [Returns [0xFF; 0xFF; 0xFF]]) [0xFF; 0xFF; 0xFF] []
           H eq_refl eq_refl).
Defined.

(** Channel 2 with two replies queued: one reply is consumed. *)
Lemma one_exchange_per_call_witness :
  0 <= 2 <= 7 /\
  calls (snd (readAdc 2 (fresh [Returns [0; 1; 2]; Returns [0; 3; 4]]))) =
    1%nat /\
  spi (snd (readAdc 2 (fresh [Returns [0; 1; 2]; Returns [0; 3; 4]]))) =
    [Returns [0; 3; 4]].
Proof.
  assert (H : 0 <= 2 <= 7) by lia.
  destruct (one_exchange_per_call (bus := scripted_bus) 2
              (fresh [Returns [0; 1; 2]; Returns [0; 3; 4]]) H)
    as (_ & C & _ & D & _).
  split; [exact H |]. split; [exact C | exact D].
Defined.

(** Channel 1 on a bus that raises errno 121, with a good reply queued
    behind it: the error comes out and the good reply is still queued. *)
Lemma transport_failure_propagates_witness :
  0 <= 1 <= 7 /\
  fst (readAdc 1 (fresh [Raises (EIO 121); Returns [0; 1; 2]])) =
    Raises (EIO 121) /\
  calls (snd (readAdc 1 (fresh [Raises (EIO 121); Returns [0; 1; 2]]))) =
    1%nat /\
  spi (snd (readAdc 1 (fresh [Raises (EIO 121); Returns [0; 1; 2]]))) =
    [Returns [0; 1; 2]].
Proof.
  assert (H : 0 <= 1 <= 7) by lia.
  destruct (transport_failure_propagates (bus := scripted_bus) 1
              (fresh [Raises (EIO 121); Returns [0; 1; 2]]) (EIO 121)
              [Returns [0; 1; 2]] H eq_refl) as (V & _ & C & D).
  split; [exact H |]. split; [exact V |]. split; [exact C | exact D].
Defined.

(** Channel 8 against channel 0 answered by zeros. *)
Lemma invalid_result_distinguishable_witness :
  (8 < 0 \/ 8 > 7) /\
  0 <= 0 <= 7 /\
  is_frame [0; 0; 0] = true /\
  fst (readAdc 8 (fresh [Returns [0; 0; 0]])) <>
  fst (readAdc 0 (fresh [Returns [0; 0; 0]])).
Proof.
  assert (Hbad : 8 < 0 \/ 8 > 7) by lia.
  assert (H : 0 <= 0 <= 7) by lia.
  destruct (invalid_result_distinguishable (bus := scripted_bus) 8 0
              (fresh [Returns [0; 0; 0]]) (fresh [Returns [0; 0; 0]])
              [0; 0; 0] [] Hbad H eq_refl eq_refl) as (_ & _ & D).
  split; [exact Hbad |]. split; [exact H |]. split; [reflexivity | exact D].
Defined.

(** Channels 2 and 5. *)
Lemma command_encoding_injective_witness :
  0 <= 2 <= 7 /\ 0 <= 5 <= 7 /\
  channel_of_frame (sendBytes 2) = 2 /\
  sendBytes 2 <> sendBytes 5.
Proof.
  assert (H2 : 0 <= 2 <= 7) by lia.
  assert (H5 : 0 <= 5 <= 7) by lia.
  destruct (command_encoding_injective 2 5 H2 H5) as (R & _ & D).
  split; [exact H2 |]. split; [exact H5 |]. split; [exact R |].
  apply D. lia.
Defined.

(** [[0xAB, 0x3C, 0x55]] and [[0x00, 0xFC, 0x55]] decode alike. *)
Lemma decode_ignores_unused_bits_witness :
  0 <= 4 <= 7 /\ 0 <= 6 <= 7 /\
  Z.land 0x3C 0x0F = Z.land 0xFC 0x0F /\
  fst (readAdc 4 (fresh [Returns [0xAB; 0x3C; 0x55]])) =
  fst (readAdc 6 (fresh [Returns [0x00; 0xFC; 0x55]])).
Proof.
  assert (H4 : 0 <= 4 <= 7) by lia.
  assert (H6 : 0 <= 6 <= 7) by lia.
  split; [exact H4 |]. split; [exact H6 |]. split; [reflexivity |].
  exact (decode_ignores_unused_bits (bus := scripted_bus) 4 6
           (fresh [Returns [0xAB; 0x3C; 0x55]])
           (fresh [Returns [0x00; 0xFC; 0x55]])
           0xAB 0x3C 0x55 0x00 0xFC 0x55 [] []
           H4 H6 eq_refl eq_refl eq_refl eq_refl).
Defined.

(** * Further properties of the script *)

(** ** More arithmetic of the bit operations *)

Lemma land_shiftl_low (a b n : Z) :
  0 <= n -> 0 <= b < 2 ^ n -> Z.land (Z.shiftl a n) b = 0.
Proof.
  intros Hn Hb. apply Z.bits_inj'. intros i Hi.
  rewrite Z.land_spec, Z.bits_0.
  destruct (Z.lt_ge_cases i n) as [L | G].
  - rewrite Z.shiftl_spec_low by exact L. reflexivity.
  - rewrite <- (Z.mod_small b (2 ^ n)) by exact Hb.
    rewrite Z.mod_pow2_bits_high by lia.
    apply andb_false_r.
Qed.

Lemma lor_shiftl_add (a b n : Z) :
  0 <= n -> 0 <= b < 2 ^ n -> Z.lor (Z.shiftl a n) b = a * 2 ^ n + b.
Proof.
  intros Hn Hb.
  pose proof (Z.add_lor_land (Z.shiftl a n) b) as E.
  rewrite (land_shiftl_low a b n Hn Hb), Z.add_0_r in E.
  rewrite E. rewrite Z.shiftl_mul_pow2 by exact Hn. reflexivity.
Qed.

(** The value computed from bytes [hi] and [lo], in arithmetic. *)
Lemma sample_arith (hi lo : Z) :
  0 <= lo <= 255 ->
  Z.lor (Z.shiftl (Z.land hi 0x0f) 8) lo = (hi mod 16) * 256 + lo.
Proof.
  intros Hlo.
  assert (B : 0 <= lo < 2 ^ 8) by (change (2 ^ 8) with 256; lia).
  rewrite (lor_shiftl_add _ lo 8 ltac:(lia) B).
  change (Z.land hi 0x0f) with (Z.land hi (Z.ones 4)).
  rewrite Z.land_ones by lia. reflexivity.
Qed.

(** A 12-bit code is put back together from its two pieces. *)
Lemma sample_rebuild (v : Z) :
  Z.lor (Z.shiftl (Z.shiftr v 8) 8) (Z.land v 0xFF) = v.
Proof.
  change (Z.land v 0xFF) with (Z.land v (Z.ones 8)).
  rewrite Z.land_ones by lia.
  pose proof (Z.mod_pos_bound v (2 ^ 8) ltac:(reflexivity)) as B.
  rewrite (lor_shiftl_add _ _ 8 ltac:(lia) B).
  rewrite Z.shiftr_div_pow2 by lia.
  pose proof (Z.div_mod v (2 ^ 8) ltac:(discriminate)). lia.
Qed.

(** Only the three low bits of the channel reach the command frame. *)
Lemma byte0_low_three_bits (c : Z) :
  Z.land (Z.shiftr (config c) 2) 0x07 =
  Z.land (Z.shiftr (config (Z.land c 7)) 2) 0x07.
Proof.
  unfold config.
  change (Z.lor START_BIT CONFIG_SINGLE_ENDED_AN0_P_GND_N) with 24.
  apply Z.bits_inj'. intros i Hi.
  rewrite !Z.land_spec, !Z.shiftr_spec by lia.
  rewrite !Z.lor_spec, !Z.land_spec.
  destruct (Z.lt_ge_cases i 3) as [L | G].
  - assert (C : i = 0 \/ i = 1 \/ i = 2) by lia.
    destruct C as [-> | [-> | ->]];
      repeat match goal with
             | |- context [Z.testbit c ?k] => destruct (Z.testbit c k)
             end; reflexivity.
  - rewrite (Z.bits_above_log2 7 i) by (simpl; lia).
    rewrite !andb_false_r. reflexivity.
Qed.

Lemma byte1_low_three_bits (c : Z) :
  Z.land (Z.shiftl (config c) 6) 0xC0 =
  Z.land (Z.shiftl (config (Z.land c 7)) 6) 0xC0.
Proof.
  unfold config.
  change (Z.lor START_BIT CONFIG_SINGLE_ENDED_AN0_P_GND_N) with 24.
  apply Z.bits_inj'. intros i Hi.
  rewrite !Z.land_spec, !Z.shiftl_spec by lia.
  rewrite !Z.lor_spec, !Z.land_spec.
  destruct (Z.lt_ge_cases i 8) as [L | G].
  - assert (C : i = 0 \/ i = 1 \/ i = 2 \/ i = 3 \/
                i = 4 \/ i = 5 \/ i = 6 \/ i = 7) by lia.
    destruct C as [-> | [-> | [-> | [-> | [-> | [-> | [-> | ->]]]]]]];
      repeat match goal with
             | |- context [Z.testbit c ?k] => destruct (Z.testbit c k)
             end; reflexivity.
  - rewrite (Z.bits_above_log2 192 i) by (simpl; lia).
    rewrite !andb_false_r. reflexivity.
Qed.

(** ** The command frame, further *)

(** X2.  For a channel in 0..7 the three bytes sent, read as one 24-bit
    number, are the configuration value shifted left by 14: the start
    bit lands on bit 18 and the channel on bits 16 to 14, the layout
    [00000SCC CCRR0000 00000000] of the comment in [readAdc]. *)
Theorem command_frame_word (c : Z) :
  0 <= c <= 7 ->
  frame_word (sendBytes c) = Z.shiftl (config c) 14 /\
  frame_word (sendBytes c) = 2 ^ 18 + 2 ^ 17 + c * 2 ^ 14.
Proof.
  intros H.
  destruct (valid_channel_cases c H) as [-> | [-> | [-> | [-> | [-> | [-> | [-> | ->]]]]]]];
    split; reflexivity.
Qed.

Lemma command_frame_word_witness :
  0 <= 5 <= 7 /\ frame_word (sendBytes 5) = 475136.
Proof.
  assert (H : 0 <= 5 <= 7) by lia.
  split; [exact H |].
  exact (proj2 (command_frame_word 5 H)).
Defined.

(** X9.  For a channel in 0..7 the configuration value [readAdc] builds
    is the start bit or-ed with the single-ended constant the script
    names for that channel, and that constant is the differential
    constant of the same rank with the single-ended bit [0x08] set. *)
Theorem config_uses_named_constant (c : Z) :
  0 <= c <= 7 ->
  config c = Z.lor START_BIT (nth (Z.to_nat c) single_ended_table 0) /\
  nth (Z.to_nat c) single_ended_table 0 =
    Z.lor 0x08 (nth (Z.to_nat c) differential_table 0) /\
  nth (Z.to_nat c) differential_table 0 = c.
Proof.
  intros H.
  destruct (valid_channel_cases c H) as [-> | [-> | [-> | [-> | [-> | [-> | [-> | ->]]]]]]];
    repeat split; reflexivity.
Qed.

Lemma config_uses_named_constant_witness :
  0 <= 6 <= 7 /\ config 6 = Z.lor START_BIT CONFIG_SINGLE_ENDED_AN6_P_GND_N.
Proof.
  assert (H : 0 <= 6 <= 7) by lia.
  split; [exact H |].
  exact (proj1 (config_uses_named_constant 6 H)).
Defined.

(** X10.  The command frame depends on the channel through its three
    low bits only: for every integer [c] the frame built from [c] is the
    frame of the channel [c mod 8], which is in 0..7.  Without the range
    check of [readAdc], channel 8 would send the frame of channel 0. *)
Theorem sendBytes_low_three_bits (c : Z) :
  sendBytes c = sendBytes (c mod 8) /\
  0 <= c mod 8 <= 7 /\
  sendBytes (c + 8) = sendBytes c.
Proof.
  assert (E : forall x : Z, sendBytes x = sendBytes (x mod 8)).
  { intros x.
    assert (M : x mod 8 = Z.land x 7).
    { change 7 with (Z.ones 3). rewrite Z.land_ones by lia. reflexivity. }
    rewrite M. unfold sendBytes.
    rewrite <- (byte0_low_three_bits x), <- (byte1_low_three_bits x).
    reflexivity. }
  split; [apply E |].
  split; [pose proof (Z.mod_pos_bound c 8 ltac:(lia)); lia |].
  rewrite (E (c + 8)), (E c).
  replace (c + 8) with (c + 1 * 8) by lia.
  rewrite Z.mod_add by lia. reflexivity.
Qed.

Section Replies.
Context {bus : SpiBus}.

(** X1.  When the exchange returns a list of fewer than three items,
    a call on a valid channel ends with [IndexError]; the frame has been
    sent all the same, that one exchange being the only one made. *)
Theorem short_reply_raises_IndexError (c : Z) (w : World) (rcv : list Z)
        (dev' : SpiDev) :
  0 <= c <= 7 ->
  spi_xfer2 (sendBytes c) (spi w) = (Returns rcv, dev') ->
  (length rcv < 3)%nat ->
  fst (readAdc c w) = Raises IndexError /\
  wire (snd (readAdc c w)) = wire w ++ [sendBytes c] /\
  spi (snd (readAdc c w)) = dev'.
Proof.
  intros H X L.
  rewrite (readAdc_short c w rcv dev' H X L).
  repeat split.
Qed.

(** X3.  A 12-bit code comes back whole: when the low four bits of
    reply byte 1 are the code's bits 11 to 8 and reply byte 2 is its low
    eight bits, [readAdc] returns the code, whatever byte 0, the high
    four bits of byte 1 and anything after byte 2 are. *)
Theorem sample_round_trip (c : Z) (w : World) (v b0 hi : Z)
        (more : list Z) (dev' : SpiDev) :
  0 <= c <= 7 ->
  Z.land hi 0x0F = Z.shiftr v 8 ->
  spi_xfer2 (sendBytes c) (spi w) =
    (Returns (b0 :: hi :: Z.land v 0xFF :: more), dev') ->
  fst (readAdc c w) = Returns v /\ 0 <= v <= 4095.
Proof.
  intros H Hhi X.
  rewrite (readAdc_returns c w _ dev' hi (Z.land v 0xFF) H X)
    by reflexivity.
  cbn [fst].
  change 0x0f with 0x0F. rewrite Hhi, sample_rebuild.
  split; [reflexivity |].
  pose proof (land_nibble_range hi) as B.
  change 0x0f with 0x0F in B. rewrite Hhi in B.
  rewrite Z.shiftr_div_pow2 in B by lia.
  change (2 ^ 8) with 256 in B.
  pose proof (Z.div_mod v 256 ltac:(lia)).
  pose proof (Z.mod_pos_bound v 256 ltac:(lia)).
  lia.
Qed.

(** X4.  Decoding loses nothing of the twelve bits it reads: two 3-byte
    replies for which [readAdc] returns the same value agree on the low
    four bits of byte 1 and on byte 2. *)
Theorem decode_injective (c c' : Z) (w w' : World) (ra rb : list Z)
        (da db : SpiDev) :
  0 <= c <= 7 ->
  0 <= c' <= 7 ->
  spi_xfer2 (sendBytes c) (spi w) = (Returns ra, da) ->
  spi_xfer2 (sendBytes c') (spi w') = (Returns rb, db) ->
  is_frame ra = true ->
  is_frame rb = true ->
  fst (readAdc c w) = fst (readAdc c' w') ->
  Z.land (nth 1 ra 0) 0x0F = Z.land (nth 1 rb 0) 0x0F /\
  nth 2 ra 0 = nth 2 rb 0.
Proof.
  intros H H' X X' Fa Fb E.
  destruct (is_frame_inv ra Fa) as (a0 & a1 & a2 & -> & _ & _ & A2).
  destruct (is_frame_inv rb Fb) as (b0 & b1 & b2 & -> & _ & _ & B2).
  rewrite (readAdc_returns c w _ da a1 a2 H X) in E by reflexivity.
  rewrite (readAdc_returns c' w' _ db b1 b2 H' X') in E by reflexivity.
  cbn [fst] in E. apply Returns_inj in E.
  rewrite (sample_arith a1 a2 A2), (sample_arith b1 b2 B2) in E.
  cbn [nth].
  change (Z.land a1 0x0F) with (Z.land a1 (Z.ones 4)).
  change (Z.land b1 0x0F) with (Z.land b1 (Z.ones 4)).
  rewrite !Z.land_ones by lia. change (2 ^ 4) with 16.
  pose proof (Z.mod_pos_bound a1 16 ltac:(lia)).
  pose proof (Z.mod_pos_bound b1 16 ltac:(lia)).
  lia.
Qed.

End Replies.

Lemma short_reply_raises_IndexError_witness :
  0 <= 0 <= 7 /\
  fst (readAdc 0 (fresh [Returns [0x00; 0x0A]; Returns [0; 1; 2]])) =
    Raises EIndex /\
  wire (snd (readAdc 0 (fresh [Returns [0x00; 0x0A]; Returns [0; 1; 2]]))) =
    [[0x06; 0x00; 0x00]] /\
  spi (snd (readAdc 0 (fresh [Returns [0x00; 0x0A]; Returns [0; 1; 2]]))) =
    [Returns [0; 1; 2]].
Proof.
  assert (H : 0 <= 0 <= 7) by lia.
  split; [exact H |].
  exact (short_reply_raises_IndexError (bus := scripted_bus) 0
           (fresh [Returns [0x00; 0x0A]; Returns [0; 1; 2]])
           [0x00; 0x0A] [Returns [0; 1; 2]] H eq_refl
           ltac:(simpl; lia)).
Defined.

Lemma sample_round_trip_witness :
  0 <= 2 <= 7 /\
  Z.land 0xF9 0x0F = Z.shiftr 2345 8 /\
  fst (readAdc 2 (fresh [Returns [0xFF; 0xF9; 0x29; 0x77]])) = Returns 2345.
Proof.
  assert (H : 0 <= 2 <= 7) by lia.
  split; [exact H |]. split; [reflexivity |].
  exact (proj1 (sample_round_trip (bus := scripted_bus) 2
                  (fresh [Returns [0xFF; 0xF9; 0x29; 0x77]])
                  2345 0xFF 0xF9 [0x77] [] H eq_refl eq_refl)).
Defined.

Lemma decode_injective_witness :
  0 <= 1 <= 7 /\ 0 <= 6 <= 7 /\
  Z.land 0x3C 0x0F = Z.land 0xFC 0x0F.
Proof.
  assert (H1 : 0 <= 1 <= 7) by lia.
  assert (H6 : 0 <= 6 <= 7) by lia.
  split; [exact H1 |]. split; [exact H6 |].
  exact (proj1 (decode_injective (bus := scripted_bus) 1 6
                  (fresh [Returns [0xAB; 0x3C; 0x55]])
                  (fresh [Returns [0x00; 0xFC; 0x55]])
                  [0xAB; 0x3C; 0x55] [0x00; 0xFC; 0x55] [] []
                  H1 H6 eq_refl eq_refl eq_refl eq_refl eq_refl)).
Defined.

(** ** The line of readings *)

Lemma string_length_append (a b : String.string) :
  String.length (String.append a b) = (String.length a + String.length b)%nat.
Proof.
  induction a as [| ch a IH]; simpl; [reflexivity |].
  rewrite IH. reflexivity.
Qed.

(** A reading, zero-filled, takes four characters. *)
Lemma zfill_sample_length (v : Z) :
  0 <= v <= 4095 ->
  String.length (Text.zfill 4 (Text.str v)) = 4%nat.
Proof.
  intros H.
  assert (T : forallb
                (fun n => Nat.eqb
                   (String.length (Text.zfill 4 (Text.str (Z.of_nat n)))) 4)
                (seq 0 4096) = true)
    by (vm_compute; reflexivity).
  rewrite forallb_forall in T.
  specialize (T (Z.to_nat v)).
  rewrite Z2Nat.id in T by lia.
  apply Nat.eqb_eq. apply T. apply in_seq. lia.
Qed.

Lemma field_length (i val : Z) :
  0 <= i <= 7 -> 0 <= val <= 4095 ->
  String.length (Text.field i val) = 7%nat.
Proof.
  intros Hi Hv. unfold Text.field.
  rewrite !string_length_append, (zfill_sample_length val Hv).
  destruct (valid_channel_cases i Hi) as [-> | [-> | [-> | [-> | [-> | [-> | [-> | ->]]]]]]];
    reflexivity.
Qed.

Lemma range_0_8 : range 0 8 = [0; 1; 2; 3; 4; 5; 6; 7].
Proof. reflexivity. Qed.

Lemma range_0_8_valid : Forall (fun i => 0 <= i <= 7) (range 0 8).
Proof. rewrite range_0_8. repeat constructor; lia. Qed.

Lemma string_append_empty_r (a : String.string) :
  String.append a String.EmptyString = a.
Proof.
  induction a as [| ch a IH]; simpl; [reflexivity |].
  rewrite IH. reflexivity.
Qed.

Lemma string_append_assoc (a b c : String.string) :
  String.append (String.append a b) c = String.append a (String.append b c).
Proof.
  induction a as [| ch a IH]; simpl; [reflexivity |].
  rewrite IH. reflexivity.
Qed.

Section Loop.
Context {bus : SpiBus}.

Lemma for_channels_cons_returns (i : Z) (rest : list Z) (s : String.string)
      (w w1 : World) (v : Z) :
  readAdc i w = (Returns v, w1) ->
  for_channels (i :: rest) s w =
  for_channels rest (String.append s (Text.field i v)) w1.
Proof.
  intros R. cbn [for_channels]. unfold bind. rewrite R. reflexivity.
Qed.

Lemma for_channels_cons_raises (i : Z) (rest : list Z) (s : String.string)
      (w w1 : World) (e : exn) :
  readAdc i w = (Raises e, w1) ->
  for_channels (i :: rest) s w = (Raises e, w1).
Proof.
  intros R. cbn [for_channels]. unfold bind. rewrite R. reflexivity.
Qed.

(** Reading [l1 ++ l2] is reading [l1], then [l2] from where that ended,
    unless [l1] raised. *)
Lemma for_channels_app (l1 l2 : list Z) :
  forall (s : String.string) (w : World),
    for_channels (l1 ++ l2) s w =
    match for_channels l1 s w with
    | (Returns s1, w1) => for_channels l2 s1 w1
    | (Raises e, w1) => (Raises e, w1)
    end.
Proof.
  induction l1 as [| i l1 IH]; intros s w.
  - reflexivity.
  - rewrite <- app_comm_cons.
    destruct (readAdc i w) as [[v | e] w1] eqn:R.
    + rewrite (for_channels_cons_returns i (l1 ++ l2) s w w1 v R).
      rewrite (for_channels_cons_returns i l1 s w w1 v R).
      apply IH.
    + rewrite (for_channels_cons_raises i (l1 ++ l2) s w w1 e R).
      rewrite (for_channels_cons_raises i l1 s w w1 e R).
      reflexivity.
Qed.

(** The frames a run of the loop sends are those of a prefix of its
    channels, the whole of them when it does not raise. *)
Lemma for_channels_wire (chans : list Z) :
  Forall (fun i => 0 <= i <= 7) chans ->
  forall (s : String.string) (w : World),
  exists k : nat,
    (k <= length chans)%nat /\
    (chans <> [] -> (1 <= k)%nat) /\
    wire (snd (for_channels chans s w)) =
      wire w ++ map sendBytes (firstn k chans) /\
    (raised (fst (for_channels chans s w)) = false -> k = length chans).
Proof.
  induction 1 as [| i rest Hi _ IH]; intros s w.
  - exists 0%nat. cbn. rewrite app_nil_r. repeat split; try lia. congruence.
  - pose proof (readAdc_world i w Hi) as W.
    destruct (readAdc i w) as [[v | e] w1] eqn:R; cbn [snd] in W.
    + rewrite (for_channels_cons_returns i rest s w w1 v R).
      destruct (IH (String.append s (Text.field i v)) w1)
        as (k & Hk & _ & Hw & Hr).
      exists (S k). cbn [length firstn map].
      split; [lia |]. split; [lia |]. split.
      * rewrite Hw, W. cbn [wire]. rewrite <- app_assoc. reflexivity.
      * intros NR. rewrite (Hr NR). reflexivity.
    + rewrite (for_channels_cons_raises i rest s w w1 e R).
      exists 1%nat. cbn [length firstn map snd fst raised].
      split; [lia |]. split; [lia |]. split.
      * rewrite W. reflexivity.
      * discriminate.
Qed.

(** What a returned reading is on a transport that replies with frames. *)
Lemma readAdc_sample (c : Z) (w w1 : World) (v : Z) :
  replies_are_frames ->
  0 <= c <= 7 ->
  readAdc c w = (Returns v, w1) ->
  0 <= v <= 4095.
Proof.
  intros F H R.
  destruct (spi_xfer2 (sendBytes c) (spi w)) as [[rcv | e] dev'] eqn:X.
  - destruct (is_frame_inv rcv (F _ _ _ _ X))
      as (b0 & b1 & b2 & -> & _ & _ & B2).
    rewrite (readAdc_returns c w _ dev' b1 b2 H X) in R by reflexivity.
    apply (f_equal fst) in R. cbn [fst] in R. apply Returns_inj in R.
    rewrite <- R. apply sample_range. exact B2.
  - rewrite (readAdc_raises c w e dev' H X) in R. discriminate R.
Qed.

(** On a transport that replies with frames and never raises, a call on
    a valid channel returns. *)
Lemma readAdc_total (c : Z) (w : World) :
  replies_are_frames ->
  never_raises ->
  0 <= c <= 7 ->
  exists (v : Z) (w1 : World), readAdc c w = (Returns v, w1).
Proof.
  intros F N H.
  destruct (spi_xfer2 (sendBytes c) (spi w)) as [[rcv | e] dev'] eqn:X.
  - destruct (is_frame_inv rcv (F _ _ _ _ X))
      as (b0 & b1 & b2 & -> & _).
    eexists. eexists.
    apply (readAdc_returns c w _ dev' b1 b2 H X); reflexivity.
  - pose proof (N (sendBytes c) (spi w)) as T.
    rewrite X in T. discriminate T.
Qed.

(** The text a completed run of the loop has added, and the frames it
    has sent. *)
Lemma for_channels_text (chans : list Z) :
  replies_are_frames ->
  Forall (fun i => 0 <= i <= 7) chans ->
  forall (s s' : String.string) (w w' : World),
    for_channels chans s w = (Returns s', w') ->
    exists tail : String.string,
      s' = String.append s tail /\
      String.length tail = (7 * length chans)%nat /\
      wire w' = wire w ++ map sendBytes chans.
Proof.
  intros F. induction 1 as [| i rest Hi _ IH]; intros s s' w w' R.
  - cbn in R. unfold ret in R.
    exists String.EmptyString.
    assert (s' = s) by congruence. assert (w' = w) by congruence. subst.
    rewrite string_append_empty_r, app_nil_r. repeat split.
  - pose proof (readAdc_world i w Hi) as W.
    destruct (readAdc i w) as [[v | e] w1] eqn:Ri; cbn [snd] in W.
    + rewrite (for_channels_cons_returns i rest s w w1 v Ri) in R.
      destruct (IH _ _ _ _ R) as (tail & Es & Len & Hw).
      exists (String.append (Text.field i v) tail).
      split; [rewrite Es; apply string_append_assoc |]. split.
      * rewrite string_length_append, Len.
        rewrite (field_length i v Hi (readAdc_sample i w w1 v F Hi Ri)).
        cbn [length]. lia.
      * rewrite Hw, W. cbn [wire map]. rewrite <- app_assoc. reflexivity.
    + rewrite (for_channels_cons_raises i rest s w w1 e Ri) in R.
      discriminate R.
Qed.

Lemma for_channels_total (chans : list Z) :
  replies_are_frames ->
  never_raises ->
  Forall (fun i => 0 <= i <= 7) chans ->
  forall (s : String.string) (w : World),
  exists (s' : String.string) (w' : World),
    for_channels chans s w = (Returns s', w').
Proof.
  intros F N. induction 1 as [| i rest Hi _ IH]; intros s w.
  - exists s, w. reflexivity.
  - destruct (readAdc_total i w F N Hi) as (v & w1 & R).
    rewrite (for_channels_cons_returns i rest s w w1 v R).
    apply IH.
Qed.

End Loop.

Section LineOfReadings.
Context {bus : SpiBus}.

(** X5.  One pass of the main loop asks for channels 0, 1, 2, ... in
    that order and for nothing else: the frames it sends are the command
    frames of the first [k] channels for some [k] between 1 and 8, and
    of all eight when the pass does not end with an exception. *)
Theorem adc_line_sends_channels_in_order (w : World) :
  exists k : nat,
    (1 <= k <= 8)%nat /\
    wire (snd (adc_line w)) =
      wire w ++ map sendBytes (firstn k [0; 1; 2; 3; 4; 5; 6; 7]) /\
    (raised (fst (adc_line w)) = false -> k = 8%nat).
Proof.
  destruct (for_channels_wire (range 0 8) range_0_8_valid Text.header w)
    as (k & Hk & H1 & Hw & Hr).
  exists k. rewrite range_0_8 in *. cbn [length] in Hk, Hr.
  split; [split; [apply H1; discriminate | exact Hk] |].
  split; [exact Hw | exact Hr].
Qed.

(** X6.  When channels 0 to [k-1] have been read and the exchange for
    channel [k] raises, the pass ends there with that exception: the
    frame of channel [k] is the last one sent, the later channels are
    not read and no line is produced. *)
Theorem adc_line_stops_at_failure (k : nat) (w w' : World)
        (s' : String.string) (e : exn) (dev' : SpiDev) :
  (k < 8)%nat ->
  for_channels (firstn k (range 0 8)) Text.header w = (Returns s', w') ->
  spi_xfer2 (sendBytes (Z.of_nat k)) (spi w') = (Raises e, dev') ->
  adc_line w =
    (Raises e, mkWorld dev' (wire w' ++ [sendBytes (Z.of_nat k)])).
Proof.
  intros Hk P X. unfold adc_line.
  assert (Split : range 0 8 =
                  firstn k (range 0 8) ++
                  Z.of_nat k :: skipn (S k) (range 0 8)).
  { do 8 (destruct k as [| k]; [reflexivity |]). lia. }
  rewrite Split at 1. rewrite for_channels_app, P.
  apply for_channels_cons_raises.
  apply readAdc_raises; [lia | exact X].
Qed.


(** X8.  On a transport that never raises and replies with 3-byte
    frames, a pass always produces its line, after exactly eight
    exchanges. *)
Theorem adc_line_completes (w : World) :
  replies_are_frames ->
  never_raises ->
  exists (s : String.string) (w' : World),
    adc_line w = (Returns s, w') /\
    calls w' = (calls w + 8)%nat.
Proof.
  intros F N.
  destruct (for_channels_total (range 0 8) F N range_0_8_valid Text.header w)
    as (s & w' & R).
  exists s, w'. split; [exact R |].
  destruct (for_channels_text (range 0 8) F range_0_8_valid _ _ _ _ R)
    as (_ & _ & _ & Hw).
  unfold calls. rewrite Hw, length_app, length_map, range_0_8. reflexivity.
Qed.

End LineOfReadings.

(** ** The loop on the simulated converter and on the scripted transport *)

Lemma land_byte_range (x : Z) : 0 <= Z.land x 0xFF <= 255.
Proof.
  change (Z.land x 0xFF) with (Z.land x (Z.ones 8)).
  rewrite Z.land_ones by lia.
  change (2 ^ 8) with 256.
  pose proof (Z.mod_pos_bound x 256 ltac:(lia)). lia.
Qed.

Lemma mcp3208_replies_are_frames : @replies_are_frames mcp3208_bus.
Proof.
  intros out dev rcv dev' X. cbn in X. unfold mcp3208_xfer2 in X.
  apply (f_equal fst) in X. cbn [fst] in X. apply Returns_inj in X.
  subst rcv. unfold is_frame. cbn [length Nat.eqb forallb andb].
  pose proof (land_nibble_range
                (Z.shiftr (nth (Z.to_nat (channel_of_frame out)) dev 0) 8)) as B1.
  pose proof (land_byte_range
                (nth (Z.to_nat (channel_of_frame out)) dev 0)) as B2.
  change 0x0f with 0x0F in B1.
  unfold is_byte.
  repeat (apply andb_true_iff; split); try reflexivity;
    apply Z.leb_le; lia.
Qed.

Lemma mcp3208_never_raises : @never_raises mcp3208_bus.
Proof. intros out dev. reflexivity. Qed.

(** Three good replies, then the bus fails: the pass stops at channel 3. *)
Lemma adc_line_stops_at_failure_witness :
  (3 < 8)%nat /\
  adc_line (fresh [Returns [0; 0; 1]; Returns [0; 0; 2];
                   Returns [0; 0; 3]; Raises (EIO 121);
                   Returns [0; 0; 5]]) =
    (Raises (EIO 121),
     @mkWorld scripted_bus [Returns [0; 0; 5]]
       [sendBytes 0; sendBytes 1; sendBytes 2; sendBytes 3]).
Proof.
  split; [lia |].
  exact (adc_line_stops_at_failure (bus := scripted_bus) 3
           (fresh [Returns [0; 0; 1]; Returns [0; 0; 2];
                   Returns [0; 0; 3]; Raises (EIO 121);
                   Returns [0; 0; 5]])
           (@mkWorld scripted_bus [Raises (EIO 121); Returns [0; 0; 5]]
              [sendBytes 0; sendBytes 1; sendBytes 2])
           _ (EIO 121) [Returns [0; 0; 5]]
           ltac:(lia) eq_refl eq_refl).
Defined.


Lemma adc_line_completes_witness :
  @replies_are_frames mcp3208_bus /\
  @never_raises mcp3208_bus /\
  exists (s : String.string) (w' : @World mcp3208_bus),
    adc_line (powered [0; 585; 4095; 7; 10; 100; 2048; 1]) = (Returns s, w') /\
    calls w' = 8%nat.
Proof.
  split; [exact mcp3208_replies_are_frames |].
  split; [exact mcp3208_never_raises |].
  exact (adc_line_completes (bus := mcp3208_bus)
           (powered [0; 585; 4095; 7; 10; 100; 2048; 1])
           mcp3208_replies_are_frames mcp3208_never_raises).
Defined.
